(** * The query engine of the finance consolidation dashboard

    A shallow embedding of [query_engine.py]: the data summary, the code
    extractor, the executor built on Python's [exec], and the orchestrator
    [ask_financial_question], followed by the properties of the
    specification that concern them.  The parts of the dashboards that
    are plain computation come after: the sidebar filters, the password
    gate, the handling of a question, and the expenses pie.

    Conventions.
    - A Python [str] is a list of Unicode code points ([pystr]).
    - Python's [None] is [VNone] for values of any type and Coq's [None]
      for fields that hold either [None] or a string.
    - [Amount] is a float64 in the source; amounts are exact here, counted
      in cents.  Only the empty sum is ever reasoned about.
    - Rows are complete: every cell of the CSV held a value, so a row has
      a date, a department, a category, an amount and a type.
    - The frame bound to the module global [df] and the module [pd] are the
      two objects that [execute_code] hands to generated code by reference;
      they live in a [store] that every call threads through. *)

From Stdlib Require Import NArith ZArith String Ascii DecimalString Lia.
From stdpp Require Import gmap list strings sorting.

Local Open Scope list_scope.

(* ================================================================== *)
(** * Python strings *)
(* ================================================================== *)

Abbreviation pystr := (list N).

(** A literal: one code point per character of the Coq string. *)
Definition py (s : string) : pystr := N_of_ascii <$> list_ascii_of_string s.

Definition NL : pystr := [10%N].

(** [str.isspace] for a single code point: the characters CPython treats
    as whitespace, which are the ones [str.strip()] removes. *)
Definition py_isspace (c : N) : bool :=
  ((9 <=? c) && (c <=? 13) || (28 <=? c) && (c <=? 32)
   || (c =? 133) || (c =? 160) || (c =? 5760)
   || (8192 <=? c) && (c <=? 8202)
   || (c =? 8232) || (c =? 8233) || (c =? 8239) || (c =? 8287)
   || (c =? 12288))%N.

Fixpoint lstrip (s : pystr) : pystr :=
  match s with
  | c :: s' => if py_isspace c then lstrip s' else s
  | [] => []
  end.

Definition rstrip (s : pystr) : pystr := reverse (lstrip (reverse s)).

(** [s.strip()] *)
Definition strip (s : pystr) : pystr := rstrip (lstrip s).

(** [s.startswith(p)], returning what follows [p]. *)
Fixpoint strip_prefix (p s : pystr) : option pystr :=
  match p, s with
  | [], _ => Some s
  | a :: p', b :: s' => if (a =? b)%N then strip_prefix p' s' else None
  | _ :: _, [] => None
  end.

Definition strip_suffix (p s : pystr) : option pystr :=
  reverse <$> strip_prefix (reverse p) (reverse s).

(** [s.partition(sep)] at the leftmost occurrence of a non-empty [sep]:
    the text before it and the text after it, or [None] when [sep] does
    not occur. *)
Fixpoint str_partition (sep s : pystr) : option (pystr * pystr) :=
  match strip_prefix sep s with
  | Some rest => Some ([], rest)
  | None =>
      match s with
      | [] => None
      | c :: s' =>
          match str_partition sep s' with
          | Some (before, after) => Some (c :: before, after)
          | None => None
          end
      end
  end.

(** [sep in s] *)
Definition str_in (sep s : pystr) : bool :=
  match str_partition sep s with Some _ => true | None => false end.

(** [s.split(sep)] for a non-empty [sep] (Python raises [ValueError] on an
    empty separator; the source only splits on the closing tag).  Every cut
    consumes at least one character, so [length s] rounds suffice. *)
Fixpoint split_rounds (n : nat) (sep s : pystr) : list pystr :=
  match n with
  | O => [s]
  | S n' =>
      match str_partition sep s with
      | Some (before, after) => before :: split_rounds n' sep after
      | None => [s]
      end
  end.

Definition str_split (sep s : pystr) : list pystr :=
  split_rounds (length s) sep s.

(** [l[-1]] on a list of strings. *)
Definition last_piece (l : list pystr) : pystr := default [] (last l).

(** [sep.join(l)] *)
Fixpoint str_join (sep : pystr) (l : list pystr) : pystr :=
  match l with
  | [] => []
  | [x] => x
  | x :: l' => x ++ sep ++ str_join sep l'
  end.

(* ================================================================== *)
(** * The code extractor *)
(* ================================================================== *)

Definition DELIM_OPEN : pystr := py "<code>".
Definition DELIM_CLOSE : pystr := py "</code>".

(** [re.search(r'<code>(.*?)</code>', text, re.DOTALL)], returning
    [match.group(1)].  The search takes the leftmost position where the
    pattern matches: the first opening tag that has a closing tag somewhere
    after it, which is the first opening tag of the text or none at all.
    The lazy [.*?] then stops at the first closing tag; with [re.DOTALL]
    the dot matches every character, newlines included. *)
Definition re_search_code (text : pystr) : option pystr :=
  match str_partition DELIM_OPEN text with
  | Some (_, rest) =>
      match str_partition DELIM_CLOSE rest with
      | Some (group1, _) => Some group1
      | None => None
      end
  | None => None
  end.

Definition extract_code (response_text : pystr) : option pystr :=
  match re_search_code response_text with
  | Some group1 => Some (strip group1)
  | None => None
  end.

(** The orchestrator's
    [response_text.split('</code>')[-1].strip() if '</code>' in response_text else '']. *)
Definition explanation_of (response_text : pystr) : pystr :=
  if str_in DELIM_CLOSE response_text
  then strip (last_piece (str_split DELIM_CLOSE response_text))
  else [].


(* ================================================================== *)
(** * Exceptions and the result of a call *)
(* ================================================================== *)

(** A raised Python exception: its class, whether that class derives from
    [Exception] (which is what [except Exception] tests; [SystemExit],
    [KeyboardInterrupt] and [GeneratorExit] derive from [BaseException]
    only), and [str(e)].  Generated code may raise an object of a class of
    its own, whose [__str__] need not return: [str_fault] says what
    [str(e)] does instead, and [exc_str] is the text it returns when there
    is no such fault. *)
Inductive exn :=
  | MkExn (exc_class : pystr) (derives_Exception : bool) (exc_str : pystr)
          (str_fault : option fault)
with fault :=
  | StrRaises (raised : exn)
  | StrHangs.

Definition exc_class (e : exn) : pystr :=
  match e with MkExn c _ _ _ => c end.
Definition derives_Exception (e : exn) : bool :=
  match e with MkExn _ d _ _ => d end.
Definition exc_str (e : exn) : pystr :=
  match e with MkExn _ _ s _ => s end.
Definition str_fault (e : exn) : option fault :=
  match e with MkExn _ _ _ f => f end.

(** An exception of a class whose [__str__] returns [msg], as those of
    the built-in classes do. *)
Definition Exn (cls : pystr) (derives : bool) (msg : pystr) : exn :=
  MkExn cls derives msg None.

Definition ValueError (msg : pystr) : exn := Exn (py "ValueError") true msg.
Definition NameError (name : pystr) : exn :=
  Exn (py "NameError") true (py "name '" ++ name ++ py "' is not defined").
Definition AttributeError (msg : pystr) : exn := Exn (py "AttributeError") true msg.
Definition SyntaxError (msg : pystr) : exn := Exn (py "SyntaxError") true msg.

(* ================================================================== *)
(** * The dataset and its summary *)
(* ================================================================== *)

Record date := mk_date { year : N; month : N; day : N }.

(** One transaction of [consolidated_master.csv]. *)
Record row := Row {
  Date : date;
  Department : pystr;
  Category : pystr;
  Amount : Z;
  Type_ : pystr;
  Description : pystr
}.

Definition dataset := list row.

Definition date_leb (a b : date) : bool :=
  ((year a <? year b)
   || (year a =? year b)
      && ((month a <? month b)
          || (month a =? month b) && (day a <=? day b)))%N.

(** [Series.min()] and [Series.max()] of a datetime column; [None] is
    pandas' [NaT], the answer for a column without values. *)
Definition series_min (l : list date) : option date :=
  match l with
  | [] => None
  | d :: l' => Some (foldl (fun m x => if date_leb x m then x else m) d l')
  end.

Definition series_max (l : list date) : option date :=
  match l with
  | [] => None
  | d :: l' => Some (foldl (fun m x => if date_leb m x then x else m) d l')
  end.

(** The decimal digits of a natural number. *)
Definition digits (n : N) : pystr := py (NilZero.string_of_uint (N.to_uint n)).

Definition zfill (width : nat) (s : pystr) : pystr :=
  replicate (width - length s) 48%N ++ s.

(** [Timestamp.strftime('%Y-%m-%d')]: the year as it is, month and day
    on two digits; on [NaT] pandas raises
    [ValueError: NaTType does not support strftime]. *)
Definition strftime (t : option date) : exn + pystr :=
  match t with
  | None => inl (ValueError (py "NaTType does not support strftime"))
  | Some d =>
      inr (digits (year d) ++ py "-" ++ zfill 2 (digits (month d))
           ++ py "-" ++ zfill 2 (digits (day d)))
  end.

(** The thousands separator of the [,] format option, on the reversed
    digit string. *)
Fixpoint group3 (k : nat) (rev_digits : pystr) : pystr :=
  match rev_digits with
  | [] => []
  | d :: l' =>
      match k with
      | 3 => 44%N :: d :: group3 1 l'
      | _ => d :: group3 (S k) l'
      end
  end.

(** [f"{n:,}"] *)
Definition fmt_thousands (n : N) : pystr :=
  reverse (group3 0 (reverse (digits n))).

(** [f"{x:,.2f}"] for an amount of [cents]. *)
Definition fmt_money (cents : Z) : pystr :=
  (if (cents <? 0)%Z then py "-" else [])
  ++ fmt_thousands (Z.to_N (Z.abs cents / 100))
  ++ py "." ++ zfill 2 (digits (Z.to_N (Z.abs cents mod 100))).

(** [df[df['Type'] == kind]['Amount'].sum()] *)
Definition amount_sum (kind : pystr) (df : dataset) : Z :=
  foldr Z.add 0%Z
    (Amount <$> filter (fun r => Type_ r = kind) df).

(** [Series.unique()]: the distinct values in order of first appearance. *)
Fixpoint unique (l : list pystr) : list pystr :=
  match l with
  | [] => []
  | x :: l' => x :: filter (fun y => y ≠ x) (unique l')
  end.

(** [get_data_summary()] over the frame that the global [df] refers to.
    The f-strings are evaluated in program order, so the date range is
    formatted (and may raise) before the summary text is assembled.  Rows
    being complete, [', '.join] always gets strings; on a frame with a
    missing department it would raise a [TypeError]. *)
Definition get_data_summary (df : dataset) : exn + pystr :=
  let total_revenue := amount_sum (py "Revenue") df in
  let total_expenses := amount_sum (py "Expense") df in
  match strftime (series_min (Date <$> df)) with
  | inl e => inl e
  | inr date_lo =>
      match strftime (series_max (Date <$> df)) with
      | inl e => inl e
      | inr date_hi =>
          let date_range := date_lo ++ py " to " ++ date_hi in
          inr (NL ++ py "CURRENT DATA SNAPSHOT:" ++ NL
               ++ py "- Total Revenue: $" ++ fmt_money total_revenue ++ NL
               ++ py "- Total Expenses: $" ++ fmt_money total_expenses ++ NL
               ++ py "- Net Income: $"
               ++ fmt_money (total_revenue - total_expenses) ++ NL
               ++ py "- Transaction Count: "
               ++ fmt_thousands (N.of_nat (length df)) ++ NL
               ++ py "- Date Range: " ++ date_range ++ NL
               ++ py "- Departments: "
               ++ str_join (py ", ") (unique (Department <$> df)) ++ NL)
      end
  end.

(* ================================================================== *)
(** * Values, namespaces and the shared store *)
(* ================================================================== *)

(** The two objects of the process that generated code receives by
    reference: the frame loaded once into the module global [df], and the
    imported module [pd]. *)
Inductive ref := RefFrame | RefPandas.

Inductive value :=
  | VNone
  | VStr (s : pystr)
  | VInt (z : Z)
  | VRef (r : ref).

(** The mutable state of the process that generated code can reach: the
    rows of the frame and the attributes set on the pandas module, which
    the namespace names, and, since [exec] adds [__builtins__] and with it
    [import], the attributes of every other module, by dotted name. *)
Record store := MkStore {
  frame : dataset;
  pandas : gmap pystr value;
  elsewhere : gmap pystr value
}.

(** A store in which nothing has been set on any other module. *)
Definition Store (rows : dataset) (attrs : gmap pystr value) : store :=
  MkStore rows attrs ∅.

(** A namespace is a Python [dict] from names to values. *)
Abbreviation namespace := (gmap pystr value).

(** What a run of [exec(code, namespace)] does: it finishes and leaves the
    namespace and the store as the code made them, it raises, or it never
    returns. *)
Inductive outcome :=
  | Completed (ns : namespace) (st : store)
  | Raised (e : exn) (st : store)
  | Diverged.

(** What a call of one of the engine's functions does. *)
Inductive py_result (A : Type) :=
  | Returns (a : A) (st : store)
  | Propagates (e : exn) (st : store)
  | Hangs.
Arguments Returns {A} a st.
Arguments Propagates {A} e st.
Arguments Hangs {A}.

(* ================================================================== *)
(** * The executor and the orchestrator *)
(* ================================================================== *)

(** The dictionary that [execute_code] returns. *)
Module Exec.
Record t := Build {
  success : bool;
  result : value;
  error : option pystr
}.
End Exec.

(** The answer envelope that [ask_financial_question] returns. *)
Module Envelope.
Record t := Build {
  answer : value;
  code : option pystr;
  explanation : pystr;
  success : bool;
  error : option pystr
}.
End Envelope.

(** The module globals [df] and [pd]. *)
Definition df : ref := RefFrame.
Definition pd : ref := RefPandas.

Definition NO_RESULT : pystr := py "Code executed but no result was set.".
Definition NO_CODE_ANSWER : pystr :=
  py "I couldn't generate code to answer that question.".
Definition NO_CODE_ERROR : pystr := py "No code block found in response".
Definition ERROR_ANSWER_PREFIX : pystr := py "I wrote code but it had an error: ".

(** [{'df': dataframe, 'pd': pd, 'result': None}] *)
Definition initial_namespace (dataframe : ref) : namespace :=
  <[py "df" := VRef dataframe]>
    (<[py "pd" := VRef pd]> (<[py "result" := VNone]> ∅)).

(** [f"{data_context}\n\nUSER QUESTION: {question}\n\nWrite pandas code ..."] *)
Definition full_prompt (data_context question : pystr) : pystr :=
  data_context ++ NL ++ NL ++ py "USER QUESTION: " ++ question ++ NL ++ NL
  ++ py "Write pandas code to answer this question. Remember to store your final answer in the `result` variable.".

Section Engine.

(** [prompts.SYSTEM_PROMPT], a fixed text handed on to the service. *)
Variable SYSTEM_PROMPT : pystr.

(** The completion service, as a stub: from the system instruction and
    the user message to [response.content[0].text]. *)
Variable client : pystr -> pystr -> pystr.

(** The interpreter behind [exec(code, namespace)]. *)
Variable exec : pystr -> namespace -> store -> outcome.

Definition execute_code (code : pystr) (dataframe : ref) (st : store)
  : py_result Exec.t :=
  let namespace := initial_namespace dataframe in
  match exec code namespace st with
  | Completed namespace' st' =>
      Returns
        {| Exec.success := true;
           Exec.result := default (VStr NO_RESULT) (namespace' !! py "result");
           Exec.error := None |} st'
  | Raised e st' =>
      (* except Exception as e *)
      if derives_Exception e then
        (* str(e), evaluated inside the handler *)
        match str_fault e with
        | None =>
            Returns
              {| Exec.success := false;
                 Exec.result := VNone;
                 Exec.error := Some (exc_str e) |} st'
        | Some (StrRaises e') => Propagates e' st'
        | Some StrHangs => Hangs
        end
      else Propagates e st'
  | Diverged => Hangs
  end.

(** The text that the completion service answers a question with. *)
Definition response_to (data_context question : pystr) : pystr :=
  client SYSTEM_PROMPT (full_prompt data_context question).

Definition ask_financial_question (question : pystr) (st : store)
  : py_result Envelope.t :=
  match get_data_summary (frame st) with
  | inl e => Propagates e st
  | inr data_context =>
      let response_text := response_to data_context question in
      match extract_code response_text with
      | None | Some [] =>
          (* if not code *)
          Returns
            {| Envelope.answer := VStr NO_CODE_ANSWER;
               Envelope.code := None;
               Envelope.explanation := response_text;
               Envelope.success := false;
               Envelope.error := Some NO_CODE_ERROR |} st
      | Some code =>
          let explanation := explanation_of response_text in
          match execute_code code df st with
          | Returns execution_result st' =>
              if Exec.success execution_result then
                Returns
                  {| Envelope.answer := Exec.result execution_result;
                     Envelope.code := Some code;
                     Envelope.explanation := explanation;
                     Envelope.success := true;
                     Envelope.error := None |} st'
              else
                Returns
                  {| Envelope.answer :=
                       match Exec.error execution_result with
                       | Some msg => VStr (ERROR_ANSWER_PREFIX ++ msg)
                       | None => VStr (ERROR_ANSWER_PREFIX ++ py "None")
                       end;
                     Envelope.code := Some code;
                     Envelope.explanation := explanation;
                     Envelope.success := false;
                     Envelope.error := Exec.error execution_result |} st'
          | Propagates e st' => Propagates e st'
          | Hangs => Hangs
          end
      end
  end.

End Engine.

(* ================================================================== *)
(** * A fragment of Python *)
(* ================================================================== *)

(** [exec] is Python's, not the repository's.  For the runs that are
    evaluated below, [python] interprets a small fragment of the language,
    one statement per line:
<<
      pass
      NAME = EXPR
      del NAME
      raise CLASS        raise CLASS()        raise CLASS('text')
      df.drop(df.index, inplace=True)
      pd.NAME = EXPR
>>
    where [EXPR] is [None], a string literal without escapes, a decimal
    literal, or [getattr(pd, 'NAME', ATOM)].  Names are looked up in the
    namespace only; the names of the fragment's builtins and the keywords
    cannot be assigned.  The attributes of the pandas module are those
    that the store lists, and the attribute names used are taken not to be
    names that pandas defines itself; [getattr] on any other value gives
    the default.  Text outside the fragment is rejected as a syntax error
    at its first such line, so [python] is stricter than Python: nothing
    proved for every code string goes through it. *)
Module Fragment.

Inductive expr :=
  | EAtom (v : value)
  | EGetattr (attr : pystr) (dflt : value).

Inductive stmt :=
  | SPass
  | SAssign (name : pystr) (e : expr)
  | SDel (name : pystr)
  | SRaise (e : exn)
  | SDropRows
  | SSetPdAttr (attr : pystr) (e : expr).

Definition is_digit (c : N) : bool := ((48 <=? c) && (c <=? 57))%N.
Definition is_letter (c : N) : bool :=
  ((65 <=? c) && (c <=? 90) || (97 <=? c) && (c <=? 122) || (c =? 95))%N.

(** Exception classes of the fragment, and whether they derive from
    [Exception]. *)
Definition classes : list (pystr * bool) :=
  [ (py "Exception", true); (py "ValueError", true);
    (py "RuntimeError", true); (py "TypeError", true);
    (py "SystemExit", false); (py "KeyboardInterrupt", false) ].

Definition reserved : list pystr :=
  (py <$> [ "False"; "None"; "True"; "and"; "as"; "assert"; "async";
            "await"; "break"; "class"; "continue"; "def"; "del"; "elif";
            "else"; "except"; "finally"; "for"; "from"; "global"; "if";
            "import"; "in"; "is"; "lambda"; "nonlocal"; "not"; "or";
            "pass"; "raise"; "return"; "try"; "while"; "with"; "yield";
            "getattr"; "__builtins__" ]%string)
  ++ (fst <$> classes).

Definition is_ident (s : pystr) : bool :=
  match s with
  | [] => false
  | c :: s' =>
      is_letter c && forallb (fun x => is_letter x || is_digit x) s'
      && bool_decide (s ∉ reserved)
  end.

(** ['text'] or ["text"], without the quote, a backslash or a newline
    inside. *)
Definition parse_str (s : pystr) : option pystr :=
  match s with
  | q :: s' =>
      if ((q =? 39) || (q =? 34))%N then
        match strip_suffix [q] s' with
        | Some inner =>
            if forallb (fun x => negb ((x =? q) || (x =? 92) || (x =? 10))%N) inner
            then Some inner else None
        | None => None
        end
      else None
  | [] => None
  end.

Definition parse_int (s : pystr) : option Z :=
  match s with
  | [] => None
  | c :: s' =>
      if forallb is_digit s && ((negb (c =? 48)%N) || bool_decide (s' = []))
      then Some (foldl (fun acc d => acc * 10 + Z.of_N (d - 48))%Z 0%Z s)
      else None
  end.

Definition parse_atom (s : pystr) : option value :=
  if bool_decide (s = py "None") then Some VNone
  else match parse_str s with
       | Some t => Some (VStr t)
       | None => VInt <$> parse_int s
       end.

Definition parse_expr (s : pystr) : option expr :=
  match strip_prefix (py "getattr(pd, '") s with
  | Some rest =>
      match str_partition (py "', ") rest with
      | Some (attr, rest') =>
          if is_ident attr then
            match strip_suffix (py ")") rest' with
            | Some a => EGetattr attr <$> parse_atom a
            | None => None
            end
          else None
      | None => None
      end
  | None => EAtom <$> parse_atom s
  end.

Definition lookup_class (name : pystr) : option bool :=
  (fun p => snd (snd p)) <$> list_find (fun p => fst p = name) classes.

Definition parse_raise (s : pystr) : option stmt :=
  match str_partition (py "(") s with
  | None => (fun b => SRaise (Exn s b [])) <$> lookup_class s
  | Some (cls, args) =>
      match lookup_class cls, strip_suffix (py ")") args with
      | Some b, Some [] => Some (SRaise (Exn cls b []))
      | Some b, Some arg => (fun msg => SRaise (Exn cls b msg)) <$> parse_str arg
      | _, _ => None
      end
  end.

Definition parse_stmt (line : pystr) : option stmt :=
  if bool_decide (line = py "pass") then Some SPass
  else if bool_decide (line = py "df.drop(df.index, inplace=True)") then Some SDropRows
  else match strip_prefix (py "del ") line with
  | Some name => if is_ident name then Some (SDel name) else None
  | None =>
  match strip_prefix (py "raise ") line with
  | Some rest => parse_raise rest
  | None =>
  match str_partition (py " = ") line with
  | Some (target, rhs) =>
      match strip_prefix (py "pd.") target with
      | Some attr =>
          if is_ident attr then SSetPdAttr attr <$> parse_expr rhs else None
      | None =>
          if is_ident target then SAssign target <$> parse_expr rhs else None
      end
  | None => None
  end end end.

(** A program is its non-blank lines, each of them a statement; the
    number of the first line that is neither is the answer otherwise. *)
Fixpoint parse_lines (n : nat) (lines : list pystr) : nat + list stmt :=
  match lines with
  | [] => inr []
  | [] :: rest => parse_lines (S n) rest
  | line :: rest =>
      match parse_stmt line with
      | None => inl n
      | Some s =>
          match parse_lines (S n) rest with
          | inl k => inl k
          | inr prog => inr (s :: prog)
          end
      end
  end.

Definition parse (code : pystr) : nat + list stmt :=
  parse_lines 1 (str_split NL code).

Definition type_name (v : value) : pystr :=
  match v with
  | VNone => py "'NoneType' object"
  | VStr _ => py "'str' object"
  | VInt _ => py "'int' object"
  | VRef RefFrame => py "'DataFrame' object"
  | VRef RefPandas => py "module 'pandas'"
  end.

Definition no_attribute (v : value) (attr : pystr) : exn :=
  AttributeError (type_name v ++ py " has no attribute '" ++ attr ++ py "'").

Definition eval (e : expr) (ns : namespace) (st : store) : exn + value :=
  match e with
  | EAtom v => inr v
  | EGetattr attr dflt =>
      match ns !! py "pd" with
      | None => inl (NameError (py "pd"))
      | Some (VRef RefPandas) => inr (default dflt (pandas st !! attr))
      | Some _ => inr dflt
      end
  end.

(** One statement: the namespace and the store after it, or the
    exception it raises. *)
Definition step (s : stmt) (ns : namespace) (st : store)
  : exn + namespace * store :=
  match s with
  | SPass => inr (ns, st)
  | SAssign name e =>
      match eval e ns st with
      | inl x => inl x
      | inr v => inr (<[name := v]> ns, st)
      end
  | SDel name =>
      match ns !! name with
      | Some _ => inr (delete name ns, st)
      | None => inl (NameError name)
      end
  | SRaise x => inl x
  | SDropRows =>
      match ns !! py "df" with
      | None => inl (NameError (py "df"))
      | Some (VRef RefFrame) =>
          inr (ns, {| frame := []; pandas := pandas st;
                      elsewhere := elsewhere st |})
      | Some v => inl (no_attribute v (py "drop"))
      end
  | SSetPdAttr attr e =>
      match eval e ns st with
      | inl x => inl x
      | inr v =>
          match ns !! py "pd" with
          | None => inl (NameError (py "pd"))
          | Some (VRef RefPandas) =>
              inr (ns, {| frame := frame st;
                          pandas := <[attr := v]> (pandas st);
                          elsewhere := elsewhere st |})
          | Some w => inl (no_attribute w attr)
          end
      end
  end.

Fixpoint run (prog : list stmt) (ns : namespace) (st : store) : outcome :=
  match prog with
  | [] => Completed ns st
  | s :: prog' =>
      match step s ns st with
      | inl x => Raised x st
      | inr (ns', st') => run prog' ns' st'
      end
  end.

Definition python (code : pystr) (ns : namespace) (st : store) : outcome :=
  match parse code with
  | inr prog => run prog ns st
  | inl n =>
      Raised
        (SyntaxError
           (py "invalid syntax (<string>, line " ++ digits (N.of_nat n)
            ++ py ")")) st
  end.

End Fragment.

(* ================================================================== *)
(** * Sample data and completion stubs *)
(* ================================================================== *)

(** Three transactions: one revenue of 100.00 and expenses of 40.00 and
    10.00. *)
Definition sample_frame : dataset :=
  [ Row (mk_date 2025 1 15) (py "Sales") (py "Product Revenue") 10000
        (py "Revenue") (py "Invoice 1001");
    Row (mk_date 2025 2 3) (py "Marketing") (py "Digital Advertising") 4000
        (py "Expense") (py "Search campaign");
    Row (mk_date 2025 3 9) (py "Operations") (py "Software & Subscriptions") 1000
        (py "Expense") (py "Licences") ].

Definition sample_store : store := Store sample_frame ∅.


Definition PROMPT : pystr := py "You are a financial analyst assistant.".

(** A deterministic completion service that always answers [response]. *)
Definition canned (response : pystr) : pystr -> pystr -> pystr :=
  fun _ _ => response.

Definition QUESTION : pystr := py "What was total revenue?".

(** A response in the style that the prompt asks for, and the envelope
    that answers it. *)
Definition revenue_response : pystr :=
  py "<code>" ++ NL ++ py "result = 'Total revenue for 2025 was $100.00'" ++ NL
  ++ py "</code>" ++ NL ++ py "This reports the total of all Revenue rows.".

Definition revenue_envelope : Envelope.t :=
  {| Envelope.answer := VStr (py "Total revenue for 2025 was $100.00");
     Envelope.code := Some (py "result = 'Total revenue for 2025 was $100.00'");
     Envelope.explanation := py "This reports the total of all Revenue rows.";
     Envelope.success := true;
     Envelope.error := None |}.



Definition DROP_ROWS : pystr := py "df.drop(df.index, inplace=True)".

(** A response whose code block holds only whitespace. *)
Definition blank_response : pystr :=
  py "Sorry. " ++ DELIM_OPEN ++ (py " " ++ NL ++ py " ") ++ DELIM_CLOSE
  ++ py " Nothing to run.".

(* ================================================================== *)
(** * The dashboard: filters *)
(* ================================================================== *)

Definition ALL_DEPARTMENTS : pystr := py "All Departments".
Definition ALL_CATEGORIES : pystr := py "All Categories".

(** [(Date.dt.date >= start_date) & (Date.dt.date <= end_date)] for one
    row. *)
Definition in_range (start_date end_date : date) (r : row) : bool :=
  date_leb start_date (Date r) && date_leb (Date r) end_date.

(** The sidebar filters of [main], in the order the script applies them.
    [date_range] is the tuple that [st.sidebar.date_input] returns: two
    dates once a range is chosen, fewer while the user is picking. *)
Definition apply_filters (selected_dept : pystr) (date_range : list date)
    (selected_category : pystr) (df : dataset) : dataset :=
  let filtered_df := df in
  let filtered_df :=
    if bool_decide (selected_dept ≠ ALL_DEPARTMENTS)
    then filter (fun r => Department r = selected_dept) filtered_df
    else filtered_df in
  let filtered_df :=
    match date_range with
    | [start_date; end_date] =>
        filter (fun r => in_range start_date end_date r = true) filtered_df
    | _ => filtered_df
    end in
  let filtered_df :=
    if bool_decide (selected_category ≠ ALL_CATEGORIES)
    then filter (fun r => Category r = selected_category) filtered_df
    else filtered_df in
  filtered_df.

(* ================================================================== *)
(** * The dashboard: what is drawn *)
(* ================================================================== *)

(** The Streamlit calls of the modelled parts of [dashboard_ai.py], with
    the arguments that vary.  A body that the script passes on unformatted
    is kept as the value it is. *)
#[warnings="-register-all"]
Inductive ui :=
  | st_password_input
      (* st.text_input("Password", type="password",
                       on_change=password_entered, key="password", ...) *)
  | st_caption (body : pystr)
  | st_error (body : value)
  | st_success (body : value)
  | st_text (body : value)
  | st_markdown (body : pystr)
  | st_code (body : pystr)
  | st_info (body : pystr)
  | st_spinner (text : pystr)
  | st_expander (label : pystr) (inner : list ui).

(* ================================================================== *)
(** * The dashboard: password gate *)
(* ================================================================== *)

(** One entry of [st.session_state.chat_history]. *)
Module Chat.
Record entry := Build {
  question : pystr;
  answer : value;
  code : option pystr;
  success : bool
}.
End Chat.

(** The values that the script keeps in [st.session_state]. *)
Inductive sval :=
  | SBool (b : bool)
  | SStr (s : pystr)
  | SChats (l : list Chat.entry).

Abbreviation session := (gmap pystr sval).

(** Python's truth value of a session entry. *)
Definition truthy (v : sval) : bool :=
  match v with
  | SBool b => b
  | SStr [] => false
  | SStr _ => true
  | SChats [] => false
  | SChats _ => true
  end.

(** The [KeyError] of a subscript on [st.session_state] or [st.secrets]. *)
Inductive key_error :=
  | NoSessionKey (key : pystr)
  | NoSecret (key : pystr).

(** [password_entered], the [on_change] callback of the password box,
    over the session state and the string-valued entries of [st.secrets].
    The session entry is read before the secret. *)
Definition password_entered (secrets : gmap pystr pystr) (ss : session)
  : key_error + session :=
  match ss !! py "password" with
  | None => inl (NoSessionKey (py "password"))
  | Some entered =>
      match secrets !! py "password" with
      | None => inl (NoSecret (py "password"))
      | Some secret =>
          if match entered with
             | SStr s => bool_decide (s = secret)
             | _ => false
             end
          then
            inr (delete (py "password")
                   (<[py "password_correct" := SBool true]> ss))
          else inr (<[py "password_correct" := SBool false]> ss)
      end
  end.

Definition GATE_CAPTION : pystr :=
  py "This demo is password protected. Contact Joey for access.".
Definition GATE_ERROR : pystr :=
  [128533%N] ++ py " Incorrect password. Please try again.".

(** [check_password]: whether the dashboard may be shown, and what the
    gate draws. *)
Definition check_password (ss : session) : bool * list ui :=
  match ss !! py "password_correct" with
  | None => (false, [st_password_input; st_caption GATE_CAPTION])
  | Some flag =>
      if negb (truthy flag)
      then (false, [st_password_input; st_error (VStr GATE_ERROR)])
      else (true, [])
  end.

(* ================================================================== *)
(** * The dashboard: asking a question *)
(* ================================================================== *)

Definition TypeError (msg : pystr) : exn := Exn (py "TypeError") true msg.

(** ["\n" in x].  A string is searched, a frame looks the key up among
    its column labels, and a value that is no container raises. *)
Definition contains_newline (x : value) : exn + bool :=
  match x with
  | VStr s => inr (str_in NL s)
  | VRef RefFrame => inr false
  | VNone => inl (TypeError (py "argument of type 'NoneType' is not iterable"))
  | VInt _ => inl (TypeError (py "argument of type 'int' is not iterable"))
  | VRef RefPandas =>
      inl (TypeError (py "argument of type 'module' is not iterable"))
  end.

(** The answer box: [st.success], [st.text] or [st.error]. *)
Definition show_answer (result : Envelope.t) : exn + list ui :=
  if Envelope.success result then
    match contains_newline (Envelope.answer result) with
    | inl e => inl e
    | inr true =>
        inr [st_success (VStr (py "Query executed successfully!"));
             st_text (Envelope.answer result)]
    | inr false => inr [st_success (Envelope.answer result)]
    end
  else inr [st_error (Envelope.answer result)].

(** The body of the audit-trail expander. *)
Definition show_code (result : Envelope.t) : list ui :=
  match Envelope.code result with
  | None | Some [] => [st_info (py "No code was generated for this query.")]
  | Some code =>
      st_code code
      :: match Envelope.explanation result with
         | [] => []
         | explanation => [st_markdown (py "**Explanation:** " ++ explanation)]
         end
  end.

Definition SPINNER_TEXT : pystr := [128269%N] ++ py " Analyzing your data...".
Definition EXPANDER_LABEL : pystr :=
  [128295%N] ++ py " View the code that generated this answer".

Section Asking.

Variable SYSTEM_PROMPT : pystr.
Variable client : pystr -> pystr -> pystr.
Variable exec : pystr -> namespace -> store -> outcome.

(** The block of [main] under [if user_question:]: what has been drawn,
    and the chat history after it, unless an exception ends the run. *)
Definition process_question (user_question : pystr)
    (chat_history : list Chat.entry) (st : store)
  : list ui * py_result (list Chat.entry) :=
  match user_question with
  | [] => ([], Returns chat_history st)
  | _ =>
      match ask_financial_question SYSTEM_PROMPT client exec user_question st with
      | Returns result st' =>
          match show_answer result with
          | inl e =>
              ([st_spinner SPINNER_TEXT; st_markdown (py "### Answer")],
               Propagates e st')
          | inr shown =>
              ([st_spinner SPINNER_TEXT; st_markdown (py "### Answer")]
               ++ shown ++ [st_expander EXPANDER_LABEL (show_code result)],
               Returns
                 (chat_history
                  ++ [ {| Chat.question := user_question;
                          Chat.answer := Envelope.answer result;
                          Chat.code := Envelope.code result;
                          Chat.success := Envelope.success result |} ])
                 st')
          end
      | Propagates e st' => ([st_spinner SPINNER_TEXT], Propagates e st')
      | Hangs => ([st_spinner SPINNER_TEXT], Hangs)
      end
  end.

End Asking.

(* ================================================================== *)
(** * The dashboard: expenses by category *)
(* ================================================================== *)

(** The order of Python strings: by code point, a prefix first. *)
Fixpoint lex_leb (a b : pystr) : bool :=
  match a, b with
  | [], _ => true
  | _ :: _, [] => false
  | x :: a', y :: b' => ((x <? y) || (x =? y) && lex_leb a' b')%N
  end.

Definition lex_le (a b : pystr) : Prop := lex_leb a b = true.

#[global] Instance lex_le_dec : RelDecision lex_le.
Proof. intros a b. unfold lex_le. apply _. Defined.

(** The total of one group of [groupby(key)["Amount"].sum()]. *)
Definition group_total (key : row → pystr) (k : pystr) (rows : dataset) : Z :=
  foldr Z.add 0%Z (Amount <$> filter (fun r => key r = k) rows).

(** [rows.groupby(key)["Amount"].sum().reset_index()]: one line per
    distinct key with the total of its rows, the keys in sorted order. *)
Definition groupby_sum (key : row → pystr) (rows : dataset)
  : list (pystr * Z) :=
  (fun k => (k, group_total key k rows))
  <$> merge_sort lex_le (unique (key <$> rows)).

(** [frame["Amount"].sum()] on a grouped frame. *)
Definition amounts_sum (l : list (pystr * Z)) : Z :=
  foldr Z.add 0%Z (snd <$> l).

Section Pie.

(** [sort_values("Amount", ascending=False)].  Its sort is not stable, so
    the order among equal amounts is left to the implementation. *)
Variable sort_desc : list (pystr * Z) → list (pystr * Z).

(** The slices of the expenses pie: the categories by total, and from the
    ninth on folded into one slice. *)
Definition expense_slices (filtered_df : dataset) : list (pystr * Z) :=
  let expenses_by_cat :=
    sort_desc
      (groupby_sum Category
         (filter (fun r => Type_ r = py "Expense") filtered_df)) in
  if (8 <? length expenses_by_cat)%nat then
    let top_cats := take 8 expenses_by_cat in
    let other_amount := amounts_sum (drop 8 expenses_by_cat) in
    top_cats ++ [(py "Other", other_amount)]
  else expenses_by_cat.

End Pie.

(** A sort by falling amount, to run the pie on. *)
Definition amount_ge (a b : pystr * Z) : Prop := (snd b ≤ snd a)%Z.

#[global] Instance amount_ge_dec : RelDecision amount_ge.
Proof. intros a b. unfold amount_ge. apply _. Defined.

Definition by_amount_desc : list (pystr * Z) → list (pystr * Z) :=
  merge_sort amount_ge.

(** Ten expense lines in ten categories, of 1.00 to 10.00. *)
Definition ten_expenses : dataset :=
  (fun n => Row (mk_date 2025 4 1) (py "Operations")
              (py "Category " ++ digits n) (Z.of_N n * 100)
              (py "Expense") (py "Line"))
  <$> [1; 2; 3; 4; 5; 6; 7; 8; 9; 10]%N.

(* ================================================================== *)
(** * The operations on small inputs *)
(* ================================================================== *)

Example strip_example : strip (py "  x = 1 " ++ NL) = py "x = 1".
Proof. by vm_compute. Qed.

Example str_split_example :
  str_split (py "ab") (py "xabyabab") = [py "x"; py "y"; []; []].
Proof. by vm_compute. Qed.

Example extract_code_example :
  extract_code (py "Sure. <code> result = 'X' </code> Done.")
  = Some (py "result = 'X'").
Proof. by vm_compute. Qed.

Example extract_code_unclosed : extract_code (py "<code> result = 1") = None.
Proof. by vm_compute. Qed.

Example fmt_money_example : fmt_money 123456789 = py "1,234,567.89".
Proof. by vm_compute. Qed.

(** The summary of the three sample rows: 100.00 of revenue against
    50.00 of expenses. *)
Example get_data_summary_sample :
  get_data_summary sample_frame
  = inr (NL ++ py "CURRENT DATA SNAPSHOT:" ++ NL
         ++ py "- Total Revenue: $100.00" ++ NL
         ++ py "- Total Expenses: $50.00" ++ NL
         ++ py "- Net Income: $50.00" ++ NL
         ++ py "- Transaction Count: 3" ++ NL
         ++ py "- Date Range: 2025-01-15 to 2025-03-09" ++ NL
         ++ py "- Departments: Sales, Marketing, Operations" ++ NL).
Proof. by vm_compute. Qed.

(* ================================================================== *)
(** * Facts about the string operations *)
(* ================================================================== *)

Section StringFacts.

Implicit Types (s p sep pre post before after : pystr) (c : N).

Lemma strip_prefix_Some p s r : strip_prefix p s = Some r ↔ s = p ++ r.
Proof.
  revert s. induction p as [|a p IH]; intros [|b s]; simpl.
  - split; congruence.
  - split; congruence.
  - split; congruence.
  - destruct (N.eqb_spec a b) as [->|Hne].
    + rewrite IH. split; congruence.
    + split; congruence.
Qed.

Lemma strip_prefix_app p r : strip_prefix p (p ++ r) = Some r.
Proof. by apply strip_prefix_Some. Qed.

Lemma strip_prefix_None p s : strip_prefix p s = None ↔ ∀ r, s ≠ p ++ r.
Proof.
  split.
  - intros H r Hs. apply strip_prefix_Some in Hs. congruence.
  - intros H. destruct (strip_prefix p s) as [r|] eqn:E; [|done].
    apply strip_prefix_Some in E. by destruct (H r).
Qed.

(** [str_partition] cuts at an occurrence of the separator... *)
Lemma str_partition_Some sep s before after :
  str_partition sep s = Some (before, after) → s = before ++ sep ++ after.
Proof.
  revert before. induction s as [|c s IH]; intros before; simpl.
  - destruct (strip_prefix sep []) as [r|] eqn:E; [|done].
    intros [= <- <-]. by apply strip_prefix_Some in E.
  - destruct (strip_prefix sep (c :: s)) as [r|] eqn:E.
    + intros [= <- <-]. by apply strip_prefix_Some in E.
    + destruct (str_partition sep s) as [[b a]|]; [|done].
      intros [= <- <-]. simpl. f_equal. by apply IH.
Qed.

(** ... which is the leftmost one, ... *)
Lemma str_partition_leftmost sep s before after b' a' :
  str_partition sep s = Some (before, after) →
  s = b' ++ sep ++ a' → length before ≤ length b'.
Proof.
  revert before b'. induction s as [|c s IH]; intros before b'; simpl.
  - destruct (strip_prefix sep []); [|done]. intros [= <- <-] _. simpl. lia.
  - destruct (strip_prefix sep (c :: s)) as [r|] eqn:E.
    + intros [= <- <-] _. simpl. lia.
    + destruct (str_partition sep s) as [[b a]|] eqn:E'; [|done].
      intros [= <- <-] Hs. destruct b' as [|x b'].
      * simpl in Hs. rewrite Hs, strip_prefix_app in E. done.
      * simpl in Hs. injection Hs as -> Hs. simpl.
        specialize (IH b b' eq_refl Hs). lia.
Qed.

(** ... and it finds an occurrence whenever there is one. *)
Lemma str_partition_None sep s :
  str_partition sep s = None ↔ ∀ b a, s ≠ b ++ sep ++ a.
Proof.
  split.
  - induction s as [|c s IH]; simpl.
    + destruct (strip_prefix sep []) as [r|] eqn:E; [done|].
      intros _ [|x b] a Hs; [|done].
      simpl in Hs. rewrite Hs, strip_prefix_app in E. done.
    + destruct (strip_prefix sep (c :: s)) as [r|] eqn:E; [done|].
      destruct (str_partition sep s) as [[b0 a0]|] eqn:E'; [done|].
      intros _ [|x b] a Hs.
      * simpl in Hs. rewrite Hs, strip_prefix_app in E. done.
      * simpl in Hs. injection Hs as -> Hs. by apply (IH eq_refl b a).
  - intros H. destruct (str_partition sep s) as [[b a]|] eqn:E; [|done].
    apply str_partition_Some in E. by destruct (H b a).
Qed.

Lemma str_in_false sep s :
  str_in sep s = false ↔ ∀ b a, s ≠ b ++ sep ++ a.
Proof.
  unfold str_in. rewrite <- str_partition_None.
  destruct (str_partition sep s); split; congruence.
Qed.


(** Two occurrences of a separator whose first character does not come
    back later in it cannot overlap. *)
Lemma occurrences_apart c sep' x y x' y' :
  c ∉ sep' →
  x ++ (c :: sep') ++ y = x' ++ (c :: sep') ++ y' →
  length x' < length x →
  ∃ z, x = x' ++ (c :: sep') ++ z.
Proof.
  intros Hc Heq Hlen.
  apply app_eq_app in Heq as [l [[-> Hl]|[-> Hl]]];
    [|rewrite length_app in Hlen; lia].
  apply app_eq_app in Hl as [m [[Hm Hy]|[-> _]]]; [|by exists m].
  destruct m as [|d m].
  - exists []. rewrite app_nil_r in Hm. by rewrite app_nil_r, Hm.
  - destruct l as [|e l]; [rewrite length_app in Hlen; simpl in Hlen; lia|].
    simpl in Hy. injection Hy as <- _.
    simpl in Hm. injection Hm as _ Hm.
    destruct Hc. rewrite Hm. set_solver.
Qed.

Lemma str_partition_app_first c sep' pre post :
  c ∉ sep' →
  str_in (c :: sep') pre = false →
  str_partition (c :: sep') (pre ++ (c :: sep') ++ post) = Some (pre, post).
Proof.
  intros Hc Hpre.
  destruct (str_partition (c :: sep') (pre ++ (c :: sep') ++ post))
    as [[b a]|] eqn:E.
  - pose proof (str_partition_Some _ _ _ _ E) as Hs.
    pose proof (str_partition_leftmost _ _ _ _ pre post E eq_refl) as Hle.
    destruct (decide (length b < length pre)) as [Hlt|Hge].
    + destruct (occurrences_apart c sep' pre post b a Hc Hs Hlt) as [z Hz].
      rewrite str_in_false in Hpre. by destruct (Hpre b z).
    + apply app_inj_1 in Hs as [-> Hs]; [|lia].
      by apply app_inv_head in Hs as ->.
  - rewrite str_partition_None in E. by destruct (E pre post).
Qed.

(** [str_split] unfolds one cut at a time. *)
Lemma split_rounds_enough sep n m s :
  sep ≠ [] → length s ≤ n → length s ≤ m →
  split_rounds n sep s = split_rounds m sep s.
Proof.
  intros Hsep. revert m s.
  assert (Hnil : ∀ k, split_rounds k sep [] = [[]]).
  { intros [|k]; simpl; [done|].
    destruct sep as [|c sep']; [done|]. done. }
  induction n as [|n IH]; intros m s Hn Hm.
  - destruct s; [|simpl in Hn; lia]. by rewrite !Hnil.
  - destruct m as [|m].
    { destruct s; [|simpl in Hm; lia]. by rewrite !Hnil. }
    simpl. destruct (str_partition sep s) as [[b a]|] eqn:E; [|done].
    f_equal. apply str_partition_Some in E. subst s.
    rewrite !length_app in Hn, Hm.
    assert (0 < length sep) by (destruct sep; [done|simpl; lia]).
    apply IH; lia.
Qed.

Lemma str_split_unfold sep s :
  sep ≠ [] →
  str_split sep s =
    match str_partition sep s with
    | Some (before, after) => before :: str_split sep after
    | None => [s]
    end.
Proof.
  intros Hsep. unfold str_split.
  destruct (str_partition sep s) as [[b a]|] eqn:E.
  - destruct s as [|x s].
    + apply str_partition_Some in E. destruct b; [|done].
      destruct sep; done.
    + cbn [length split_rounds]. rewrite E. f_equal.
      apply split_rounds_enough; [done| |done].
      apply str_partition_Some in E.
      apply (f_equal length) in E. rewrite !length_app in E. simpl in E.
      assert (0 < length sep) by (destruct sep; [done|simpl; lia]). lia.
  - destruct (length s); cbn [split_rounds]; [done|]. by rewrite E.
Qed.

Lemma str_split_nonempty sep s : str_split sep s ≠ [].
Proof.
  unfold str_split. destruct (length s); cbn [split_rounds]; [done|].
  by destruct (str_partition sep s) as [[??]|].
Qed.

Lemma last_piece_cons x (l : list pystr) :
  l ≠ [] → last_piece (x :: l) = last_piece l.
Proof.
  intros Hl. unfold last_piece. rewrite last_cons.
  destruct (last l) eqn:E; [done|]. by apply last_None in E.
Qed.


End StringFacts.

(* ================================================================== *)
(** * The code extractor *)
(* ================================================================== *)

Section ExtractorFacts.

Implicit Types (text prefix code suffix : pystr).

Lemma open_head_unique : 60%N ∉ py "code>".
Proof. apply (bool_decide_unpack _). by vm_compute. Qed.

Lemma close_head_unique : 60%N ∉ py "/code>".
Proof. apply (bool_decide_unpack _). by vm_compute. Qed.

Lemma partition_open prefix rest :
  str_in DELIM_OPEN prefix = false →
  str_partition DELIM_OPEN (prefix ++ DELIM_OPEN ++ rest) = Some (prefix, rest).
Proof. apply (str_partition_app_first 60 (py "code>")), open_head_unique. Qed.

Lemma partition_close code rest :
  str_in DELIM_CLOSE code = false →
  str_partition DELIM_CLOSE (code ++ DELIM_CLOSE ++ rest) = Some (code, rest).
Proof. apply (str_partition_app_first 60 (py "/code>")), close_head_unique. Qed.

Lemma extract_code_first_pair prefix code suffix :
  str_in DELIM_OPEN prefix = false →
  str_in DELIM_CLOSE code = false →
  extract_code (prefix ++ DELIM_OPEN ++ code ++ DELIM_CLOSE ++ suffix)
  = Some (strip code).
Proof.
  intros Hp Hc. unfold extract_code, re_search_code.
  by rewrite partition_open, partition_close.
Qed.


Lemma explanation_without_close text :
  str_in DELIM_CLOSE text = false → explanation_of text = [].
Proof. intros H. unfold explanation_of. by rewrite H. Qed.

Lemma extract_code_None text :
  extract_code text = None ↔
  ∀ a b c, text ≠ a ++ DELIM_OPEN ++ b ++ DELIM_CLOSE ++ c.
Proof.
  unfold extract_code, re_search_code. split.
  - intros H a b c ->.
    destruct (str_partition DELIM_OPEN (a ++ DELIM_OPEN ++ b ++ DELIM_CLOSE ++ c))
      as [[a' rest]|] eqn:E.
    + pose proof (str_partition_Some _ _ _ _ E) as Hs.
      pose proof (str_partition_leftmost _ _ _ _ a _ E eq_refl) as Hle.
      destruct (str_partition DELIM_CLOSE rest) as [[??]|] eqn:E'; [done|].
      rewrite str_partition_None in E'.
      destruct (decide (length a' < length a)) as [Hlt|Hge].
      * destruct (occurrences_apart 60 (py "code>") a _ a' rest
                    open_head_unique Hs Hlt) as [z ->].
        rewrite <- !app_assoc in Hs. apply app_inv_head in Hs.
        change ((60%N :: py "code>") ++ z ++ DELIM_OPEN ++ b ++ DELIM_CLOSE ++ c
                = (60%N :: py "code>") ++ rest) in Hs.
        apply app_inv_head in Hs.
        apply (E' (z ++ DELIM_OPEN ++ b) c). rewrite <- Hs.
        by rewrite <- !app_assoc.
      * apply app_inj_1 in Hs as [-> Hs]; [|lia].
        apply app_inv_head in Hs. by apply (E' b c).
    + rewrite str_partition_None in E. by apply (E a (b ++ DELIM_CLOSE ++ c)).
  - intros H.
    destruct (str_partition DELIM_OPEN text) as [[a rest]|] eqn:E; [|done].
    destruct (str_partition DELIM_CLOSE rest) as [[b c]|] eqn:E'; [|done].
    apply str_partition_Some in E, E'. subst. by destruct (H a b c).
Qed.

Lemma lstrip_blank s : forallb py_isspace s = true → lstrip s = [].
Proof.
  induction s as [|c s IH]; simpl; [done|].
  intros [Hc Hs]%andb_prop. rewrite Hc. by apply IH.
Qed.

Lemma strip_blank s : forallb py_isspace s = true → strip s = [].
Proof. intros H. unfold strip. by rewrite lstrip_blank. Qed.

Lemma blank_without_close s :
  forallb py_isspace s = true → str_in DELIM_CLOSE s = false.
Proof.
  intros H. apply str_in_false. intros b a ->.
  rewrite !forallb_app in H.
  apply andb_prop in H as [_ H]. apply andb_prop in H as [H _]. done.
Qed.

End ExtractorFacts.




(* ================================================================== *)
(** * The data summary *)
(* ================================================================== *)

(** C7 at the empty dataset: both totals are the empty sum, and then
    [df['Date'].min()] is [NaT], whose [strftime] raises; no summary is
    produced. *)
Theorem get_data_summary_empty_raises :
  amount_sum (py "Revenue") [] = 0%Z
  ∧ amount_sum (py "Expense") [] = 0%Z
  ∧ get_data_summary []
    = inl (ValueError (py "NaTType does not support strftime")).
Proof. by vm_compute. Qed.

Lemma get_data_summary_nonempty (r : row) (rows : dataset) :
  ∃ data_context, get_data_summary (r :: rows) = inr data_context.
Proof. unfold get_data_summary. simpl. eauto. Qed.

(* ================================================================== *)
(** * The executor and the orchestrator, for any interpreter *)
(* ================================================================== *)

Section EngineFacts.

Variable SYSTEM_PROMPT : pystr.
Variable client : pystr -> pystr -> pystr.
Variable exec : pystr -> namespace -> store -> outcome.

Local Abbreviation response := (response_to SYSTEM_PROMPT client).
Local Abbreviation ask := (ask_financial_question SYSTEM_PROMPT client exec).

Lemma initial_namespace_result dataframe :
  initial_namespace dataframe !! py "result" = Some VNone.
Proof. by vm_compute. Qed.

(** On normal completion the executor reports success with whatever the
    final namespace holds under [result]; the sentinel stands in only
    when that name is gone. *)
Lemma execute_code_completed code dataframe st ns' st' :
  exec code (initial_namespace dataframe) st = Completed ns' st' →
  execute_code exec code dataframe st
  = Returns {| Exec.success := true;
               Exec.result := default (VStr NO_RESULT) (ns' !! py "result");
               Exec.error := None |} st'.
Proof. intros H. unfold execute_code. by rewrite H. Qed.

Lemma execute_code_escapes code dataframe st e st' :
  exec code (initial_namespace dataframe) st = Raised e st' →
  derives_Exception e = false →
  execute_code exec code dataframe st = Propagates e st'.
Proof. intros H He. unfold execute_code. by rewrite H, He. Qed.

(** An exception that [str(e)] raises inside the handler leaves the
    executor in place of the one that was caught. *)
Lemma execute_code_str_raises code dataframe st e e' st' :
  exec code (initial_namespace dataframe) st = Raised e st' →
  derives_Exception e = true →
  str_fault e = Some (StrRaises e') →
  execute_code exec code dataframe st = Propagates e' st'.
Proof. intros H He Hs. unfold execute_code. by rewrite H, He, Hs. Qed.


(** The envelope of the branch taken under [if not code]. *)
Lemma ask_without_code question st data_context :
  get_data_summary (frame st) = inr data_context →
  (extract_code (response data_context question) = None
   ∨ extract_code (response data_context question) = Some []) →
  ask question st
  = Returns {| Envelope.answer := VStr NO_CODE_ANSWER;
               Envelope.code := None;
               Envelope.explanation := response data_context question;
               Envelope.success := false;
               Envelope.error := Some NO_CODE_ERROR |} st.
Proof.
  intros Hsum Hcode. unfold ask_financial_question. rewrite Hsum.
  by destruct Hcode as [-> | ->].
Qed.

(** C6.  When no code block is extracted from the response, the envelope
    is the fixed failure: the fallback answer, no code, the raw response
    as explanation, and the fixed error text. *)
Theorem no_code_envelope question st data_context :
  get_data_summary (frame st) = inr data_context →
  extract_code (response data_context question) = None →
  ask question st
  = Returns {| Envelope.answer := VStr NO_CODE_ANSWER;
               Envelope.code := None;
               Envelope.explanation := response data_context question;
               Envelope.success := false;
               Envelope.error := Some NO_CODE_ERROR |} st.
Proof. intros Hsum Hcode. apply ask_without_code; auto. Qed.

(** C10, as amended.  When the first pair of tags of the response, the
    pair that the extractor matches, encloses nothing but whitespace, the
    orchestrator takes the same branch and returns the same envelope as
    for a response without a code block; nothing is executed and the
    store is left alone. *)
Theorem blank_code_envelope question st data_context before blank after :
  get_data_summary (frame st) = inr data_context →
  response data_context question
  = before ++ DELIM_OPEN ++ blank ++ DELIM_CLOSE ++ after →
  str_in DELIM_OPEN before = false →
  forallb py_isspace blank = true →
  ask question st
  = Returns {| Envelope.answer := VStr NO_CODE_ANSWER;
               Envelope.code := None;
               Envelope.explanation := response data_context question;
               Envelope.success := false;
               Envelope.error := Some NO_CODE_ERROR |} st.
Proof.
  intros Hsum Hresp Hbefore Hblank. apply ask_without_code; [done|].
  right. rewrite Hresp.
  rewrite extract_code_first_pair by auto using blank_without_close.
  by rewrite strip_blank.
Qed.


(** C5, as amended.  On a response without a matching pair of tags the
    extractor returns no code (it is a total function: it raises on no
    input), and the explanation that the orchestrator then returns is the
    raw response. *)
Theorem no_pair_no_code question st data_context text :
  get_data_summary (frame st) = inr data_context →
  response data_context question = text →
  (∀ a b c, text ≠ a ++ DELIM_OPEN ++ b ++ DELIM_CLOSE ++ c) →
  extract_code text = None
  ∧ ask question st
    = Returns {| Envelope.answer := VStr NO_CODE_ANSWER;
                 Envelope.code := None;
                 Envelope.explanation := text;
                 Envelope.success := false;
                 Envelope.error := Some NO_CODE_ERROR |} st.
Proof.
  intros Hsum Hresp Hpair. apply extract_code_None in Hpair.
  split; [done|]. rewrite <- Hresp in *. apply ask_without_code; auto.
Qed.


End EngineFacts.

(* ================================================================== *)
(** * Runs of the engine on the Python fragment *)
(* ================================================================== *)



(** C2 at code that never assigns [result]: the namespace was built with
    ['result': None], so the lookup finds [None] and the sentinel is not
    used. *)
Theorem execute_code_result_never_set :
  execute_code Fragment.python (py "x = 1") df sample_store
  = Returns {| Exec.success := true;
               Exec.result := VNone;
               Exec.error := None |} sample_store
  ∧ VNone ≠ VStr NO_RESULT.
Proof. split; [by vm_compute|done]. Qed.

(** The sentinel is reached only when the code deletes the name. *)
Lemma execute_code_result_deleted :
  execute_code Fragment.python (py "del result") df sample_store
  = Returns {| Exec.success := true;
               Exec.result := VStr NO_RESULT;
               Exec.error := None |} sample_store.
Proof. by vm_compute. Qed.

Lemma execute_code_result_set :
  execute_code Fragment.python (py "result = 'X'") df sample_store
  = Returns {| Exec.success := true;
               Exec.result := VStr (py "X");
               Exec.error := None |} sample_store.
Proof. by vm_compute. Qed.



(** Exceptions outside the [Exception] hierarchy are not caught. *)
Lemma execute_code_system_exit :
  execute_code Fragment.python (py "raise SystemExit") df sample_store
  = Propagates (Exn (py "SystemExit") false []) sample_store.
Proof. by vm_compute. Qed.

Lemma no_code_envelope_witness :
  ask_financial_question PROMPT
    (canned (py "I am not sure how to compute that.")) Fragment.python
    QUESTION sample_store
  = Returns {| Envelope.answer := VStr NO_CODE_ANSWER;
               Envelope.code := None;
               Envelope.explanation := py "I am not sure how to compute that.";
               Envelope.success := false;
               Envelope.error := Some NO_CODE_ERROR |} sample_store.
Proof.
  eapply (no_code_envelope PROMPT
            (canned (py "I am not sure how to compute that."))
            Fragment.python QUESTION sample_store);
    vm_compute; reflexivity.
Defined.

Lemma blank_code_envelope_witness :
  ask_financial_question PROMPT (canned blank_response) Fragment.python
    QUESTION sample_store
  = Returns {| Envelope.answer := VStr NO_CODE_ANSWER;
               Envelope.code := None;
               Envelope.explanation := blank_response;
               Envelope.success := false;
               Envelope.error := Some NO_CODE_ERROR |} sample_store.
Proof.
  eapply (blank_code_envelope PROMPT (canned blank_response) Fragment.python
            QUESTION sample_store _
            (py "Sorry. ") (py " " ++ NL ++ py " ") (py " Nothing to run."));
    [vm_compute; reflexivity | reflexivity | vm_compute; reflexivity
    | vm_compute; reflexivity].
Defined.

Lemma no_pair_no_code_witness :
  extract_code (py "Revenue was fine, <code> unfinished") = None
  ∧ ask_financial_question PROMPT
      (canned (py "Revenue was fine, <code> unfinished")) Fragment.python
      QUESTION sample_store
    = Returns {| Envelope.answer := VStr NO_CODE_ANSWER;
                 Envelope.code := None;
                 Envelope.explanation := py "Revenue was fine, <code> unfinished";
                 Envelope.success := false;
                 Envelope.error := Some NO_CODE_ERROR |} sample_store.
Proof.
  eapply (no_pair_no_code PROMPT
            (canned (py "Revenue was fine, <code> unfinished"))
            Fragment.python QUESTION sample_store).
  - vm_compute. reflexivity.
  - reflexivity.
  - apply extract_code_None. vm_compute. reflexivity.
Defined.

(** C5 fails as stated: on a response without a pair of tags, here one
    with a closing tag alone, no code is extracted, and the explanation
    that comes back is the response itself, not the empty string. *)
Lemma no_pair_explanation_counterexample :
  (∀ a b c, py "</code>tail" ≠ a ++ DELIM_OPEN ++ b ++ DELIM_CLOSE ++ c)
  ∧ extract_code (py "</code>tail") = None
  ∧ ask_financial_question PROMPT (canned (py "</code>tail")) Fragment.python
      QUESTION sample_store
    = Returns {| Envelope.answer := VStr NO_CODE_ANSWER;
                 Envelope.code := None;
                 Envelope.explanation := py "</code>tail";
                 Envelope.success := false;
                 Envelope.error := Some NO_CODE_ERROR |} sample_store
  ∧ py "</code>tail" ≠ [].
Proof.
  split; [|split; [|split]].
  - apply extract_code_None. by vm_compute.
  - by vm_compute.
  - by vm_compute.
  - done.
Qed.

(** C10 fails as stated: a response may hold a blank pair of tags after
    a pair with code; the extractor matches the first pair, and that code
    is executed. *)
Lemma blank_pair_after_code_counterexample :
  ask_financial_question PROMPT
    (canned (py "<code>result = 'A'</code> then <code> </code>"))
    Fragment.python QUESTION sample_store
  = Returns {| Envelope.answer := VStr (py "A");
               Envelope.code := Some (py "result = 'A'");
               Envelope.explanation := [];
               Envelope.success := true;
               Envelope.error := None |} sample_store.
Proof. by vm_compute. Qed.

(** C8.  On any non-empty dataset, code that drops the rows in place runs
    to completion, the executor reports success, and the frame that the
    store holds afterwards, the one every later call reads, is empty. *)
Theorem dataset_not_protected (st : store) :
  frame st ≠ [] →
  ∃ code r st',
    execute_code Fragment.python code df st = Returns r st'
    ∧ Exec.success r = true
    ∧ frame st' = []
    ∧ frame st' ≠ frame st.
Proof.
  intros Hne. exists DROP_ROWS. eexists. eexists.
  split; [vm_compute; reflexivity|]. simpl. by repeat split.
Qed.

Lemma dataset_not_protected_witness :
  ∃ code r st',
    execute_code Fragment.python code df sample_store = Returns r st'
    ∧ Exec.success r = true
    ∧ frame st' = []
    ∧ frame st' ≠ frame sample_store.
Proof. apply (dataset_not_protected sample_store). by vm_compute. Defined.

(** The mutation outlives the call: the next question finds no rows and
    fails in the summary. *)
Lemma ask_after_drop :
  ask_financial_question PROMPT
    (canned (DELIM_OPEN ++ DROP_ROWS ++ DELIM_CLOSE)) Fragment.python
    QUESTION sample_store
  = Returns {| Envelope.answer := VNone;
               Envelope.code := Some DROP_ROWS;
               Envelope.explanation := [];
               Envelope.success := true;
               Envelope.error := None |} (Store [] ∅)
  ∧ ask_financial_question PROMPT
      (canned (DELIM_OPEN ++ DROP_ROWS ++ DELIM_CLOSE)) Fragment.python
      QUESTION (Store [] ∅)
    = Propagates (ValueError (py "NaTType does not support strftime"))
        (Store [] ∅).
Proof. split; by vm_compute. Qed.



(* ================================================================== *)
(** * More about trimming and splitting *)
(* ================================================================== *)

Section TrimFacts.

Implicit Types (s w sep : pystr).

Lemma lstrip_decompose s :
  ∃ w, s = w ++ lstrip s ∧ forallb py_isspace w = true.
Proof.
  induction s as [|c s (w & Hs & Hw)]; [by exists []|].
  simpl. destruct (py_isspace c) eqn:Hc.
  - exists (c :: w). simpl. rewrite Hc, Hw. by rewrite <- Hs.
  - by exists [].
Qed.

Lemma lstrip_fixed s c r : lstrip s = c :: r → py_isspace c = false.
Proof.
  induction s as [|d s IH]; simpl; [done|].
  destruct (py_isspace d) eqn:Hd; [done|]. by intros [= <- _].
Qed.

Lemma lstrip_tight s :
  match s with c :: _ => py_isspace c = false | [] => True end →
  lstrip s = s.
Proof. destruct s as [|c s]; simpl; [done|]. by intros ->. Qed.

Lemma lstrip_idem s : lstrip (lstrip s) = lstrip s.
Proof.
  apply lstrip_tight. destruct (lstrip s) as [|c r] eqn:E; [done|].
  by apply lstrip_fixed in E.
Qed.

Lemma rstrip_decompose s :
  ∃ w, s = rstrip s ++ w ∧ forallb py_isspace w = true.
Proof.
  destruct (lstrip_decompose (reverse s)) as (w & Hs & Hw).
  exists (reverse w). split.
  - unfold rstrip. rewrite <- reverse_app, <- Hs. by rewrite reverse_involutive.
  - rewrite forallb_forall in *. intros x Hx. apply Hw.
    by apply list_elem_of_In, elem_of_reverse, list_elem_of_In.
Qed.

Lemma rstrip_idem s : rstrip (rstrip s) = rstrip s.
Proof.
  unfold rstrip. by rewrite reverse_involutive, lstrip_idem.
Qed.

(** Trimming on the right keeps a text trimmed on the left. *)
Lemma lstrip_rstrip_fixed s : lstrip s = s → lstrip (rstrip s) = rstrip s.
Proof.
  intros Hs. apply lstrip_tight.
  destruct (rstrip s) as [|c r] eqn:E; [done|].
  destruct (rstrip_decompose s) as (w & Hw & _). rewrite E in Hw.
  rewrite Hw in Hs. simpl in Hs.
  destruct (py_isspace c) eqn:Hc; [|done].
  destruct (lstrip_decompose (r ++ w)) as (w' & Hw' & _).
  apply (f_equal length) in Hs, Hw'. rewrite !length_app in Hw'.
  simpl in Hs. rewrite length_app in Hs. lia.
Qed.

Lemma strip_idem s : strip (strip s) = strip s.
Proof.
  unfold strip.
  rewrite (lstrip_rstrip_fixed (lstrip s)) by apply lstrip_idem.
  apply rstrip_idem.
Qed.

Lemma strip_decompose s : ∃ w1 w2, s = w1 ++ strip s ++ w2.
Proof.
  destruct (lstrip_decompose s) as (w1 & H1 & _).
  destruct (rstrip_decompose (lstrip s)) as (w2 & H2 & _).
  exists w1, w2. unfold strip. by rewrite <- H2.
Qed.

Lemma strip_keeps_free sep s : str_in sep s = false → str_in sep (strip s) = false.
Proof.
  rewrite !str_in_false. intros H b a Hs.
  destruct (strip_decompose s) as (w1 & w2 & Hw).
  apply (H (w1 ++ b) (a ++ w2)). rewrite Hw at 1. rewrite Hs.
  by rewrite <- !app_assoc.
Qed.

(** The part before the cut holds no separator. *)
Lemma str_partition_before_free sep s before after :
  sep ≠ [] →
  str_partition sep s = Some (before, after) →
  str_in sep before = false.
Proof.
  intros Hsep E. apply str_in_false. intros x y ->.
  pose proof (str_partition_Some _ _ _ _ E) as Hs.
  rewrite <- !app_assoc in Hs.
  pose proof (str_partition_leftmost _ _ _ _ x _ E Hs) as Hle.
  rewrite !length_app in Hle.
  assert (0 < length sep) by (destruct sep; [done|simpl; lia]). lia.
Qed.

(** The last piece of a split holds no separator, and the separator stands
    right before it whenever the text has one. *)
Lemma last_piece_after_last sep s :
  sep ≠ [] →
  str_in sep (last_piece (str_split sep s)) = false
  ∧ (str_in sep s = true →
     ∃ before, s = before ++ sep ++ last_piece (str_split sep s)).
Proof.
  intros Hsep.
  remember (length s) as n eqn:Hn. revert s Hn.
  induction (lt_wf n) as [n _ IH]. intros s ->.
  rewrite str_split_unfold by done. unfold str_in at 2.
  destruct (str_partition sep s) as [[b a]|] eqn:E.
  - pose proof (str_partition_Some _ _ _ _ E) as Hs.
    rewrite last_piece_cons by apply str_split_nonempty.
    assert (length a < length s) as Hlt.
    { rewrite Hs, !length_app.
      assert (0 < length sep) by (destruct sep; [done|simpl; lia]). lia. }
    destruct (IH (length a) Hlt a eq_refl) as [Hfree Hdec].
    split; [done|]. intros _.
    destruct (str_in sep a) eqn:Ha.
    + destruct (Hdec eq_refl) as [x Hx].
      exists (b ++ sep ++ x). rewrite Hs at 1. rewrite Hx at 1.
      by rewrite <- !app_assoc.
    + exists b. rewrite Hs at 1. do 2 f_equal.
      rewrite str_split_unfold by done. unfold str_in in Ha.
      by destruct (str_partition sep a) as [[??]|].
  - split; [|done]. unfold last_piece. simpl. unfold str_in. by rewrite E.
Qed.

End TrimFacts.

(* ================================================================== *)
(** * More about the extractor *)
(* ================================================================== *)

Lemma extract_code_sound (text code : pystr) :
  extract_code text = Some code →
  ∃ before inner after,
    text = before ++ DELIM_OPEN ++ inner ++ DELIM_CLOSE ++ after
    ∧ str_in DELIM_OPEN before = false
    ∧ str_in DELIM_CLOSE inner = false
    ∧ code = strip inner.
Proof.
  unfold extract_code, re_search_code.
  destruct (str_partition DELIM_OPEN text) as [[before rest]|] eqn:E; [|done].
  destruct (str_partition DELIM_CLOSE rest) as [[inner after]|] eqn:E'; [|done].
  intros [= <-]. exists before, inner, after.
  apply str_partition_before_free in E as Hb; [|done].
  apply str_partition_before_free in E' as Hi; [|done].
  apply str_partition_Some in E, E'. by subst.
Qed.

(** X1.  Code is extracted exactly when the text has an opening tag
    followed later by a closing tag, and it is then the trimmed text
    between the first opening tag and the first closing tag after it. *)
Theorem extract_code_characterised (text code : pystr) :
  extract_code text = Some code ↔
  ∃ before inner after,
    text = before ++ DELIM_OPEN ++ inner ++ DELIM_CLOSE ++ after
    ∧ str_in DELIM_OPEN before = false
    ∧ str_in DELIM_CLOSE inner = false
    ∧ code = strip inner.
Proof.
  split; [apply extract_code_sound|].
  intros (before & inner & after & -> & Hb & Hi & ->).
  by apply extract_code_first_pair.
Qed.

(** X2.  The explanation never holds a closing tag and is trimmed; when
    the text has a closing tag it is the trimmed text after the last
    one. *)
Theorem explanation_characterised (text : pystr) :
  str_in DELIM_CLOSE (explanation_of text) = false
  ∧ strip (explanation_of text) = explanation_of text
  ∧ (str_in DELIM_CLOSE text = true →
     ∃ before after,
       text = before ++ DELIM_CLOSE ++ after
       ∧ str_in DELIM_CLOSE after = false
       ∧ explanation_of text = strip after).
Proof.
  assert (Hsep : DELIM_CLOSE ≠ []) by done.
  destruct (last_piece_after_last DELIM_CLOSE text Hsep) as [Hfree Hdec].
  unfold explanation_of. destruct (str_in DELIM_CLOSE text) eqn:Hin.
  - split; [by apply strip_keeps_free|]. split; [apply strip_idem|].
    intros _. destruct (Hdec eq_refl) as [before Hb].
    by exists before, (last_piece (str_split DELIM_CLOSE text)).
  - by repeat split.
Qed.

(* ================================================================== *)
(** * More about the orchestrator *)
(* ================================================================== *)

Section OrchestratorFacts.

Variable SYSTEM_PROMPT : pystr.
Variable client : pystr -> pystr -> pystr.
Variable exec : pystr -> namespace -> store -> outcome.

Local Abbreviation response := (response_to SYSTEM_PROMPT client).
Local Abbreviation ask := (ask_financial_question SYSTEM_PROMPT client exec).

(** The three ways in which the orchestrator returns. *)
Lemma ask_returns question st env st' :
  ask question st = Returns env st' →
  ∃ data_context,
    get_data_summary (frame st) = inr data_context
    ∧ ((st' = st
        ∧ (extract_code (response data_context question) = None
           ∨ extract_code (response data_context question) = Some [])
        ∧ env = {| Envelope.answer := VStr NO_CODE_ANSWER;
                   Envelope.code := None;
                   Envelope.explanation := response data_context question;
                   Envelope.success := false;
                   Envelope.error := Some NO_CODE_ERROR |})
       ∨ (∃ code ns',
            extract_code (response data_context question) = Some code
            ∧ code ≠ []
            ∧ exec code (initial_namespace df) st = Completed ns' st'
            ∧ env = {| Envelope.answer :=
                         default (VStr NO_RESULT) (ns' !! py "result");
                       Envelope.code := Some code;
                       Envelope.explanation :=
                         explanation_of (response data_context question);
                       Envelope.success := true;
                       Envelope.error := None |})
       ∨ (∃ code e,
            extract_code (response data_context question) = Some code
            ∧ code ≠ []
            ∧ exec code (initial_namespace df) st = Raised e st'
            ∧ derives_Exception e = true
            ∧ str_fault e = None
            ∧ env = {| Envelope.answer :=
                         VStr (ERROR_ANSWER_PREFIX ++ exc_str e);
                       Envelope.code := Some code;
                       Envelope.explanation :=
                         explanation_of (response data_context question);
                       Envelope.success := false;
                       Envelope.error := Some (exc_str e) |})).
Proof.
  unfold ask_financial_question.
  destruct (get_data_summary (frame st)) as [e|data_context] eqn:Hsum; [done|].
  intros H. exists data_context. split; [done|].
  destruct (extract_code (response_to SYSTEM_PROMPT client data_context question))
    as [[|c code]|] eqn:Hcode.
  - injection H as <- <-. left. auto.
  - right. unfold execute_code in H.
    destruct (exec (c :: code) (initial_namespace df) st)
      as [ns1 st1|e st1|] eqn:Hexec; [| |done].
    + injection H as <- <-. left. by exists (c :: code), ns1.
    + destruct (derives_Exception e) eqn:He; [|done].
      destruct (str_fault e) as [[e'|]|] eqn:Hs; [done|done|].
      injection H as <- <-. right. by exists (c :: code), e.
  - injection H as <- <-. left. auto.
Qed.


(** X5.  An envelope without code is always the fixed failure, with the
    raw response as explanation, and the store is the one the call
    started from: nothing was executed. *)
Theorem envelope_without_code question st env st' :
  ask question st = Returns env st' →
  Envelope.code env = None →
  st' = st
  ∧ Envelope.success env = false
  ∧ Envelope.answer env = VStr NO_CODE_ANSWER
  ∧ Envelope.error env = Some NO_CODE_ERROR
  ∧ ∃ data_context,
      get_data_summary (frame st) = inr data_context
      ∧ Envelope.explanation env = response data_context question.
Proof.
  intros H Hc. apply ask_returns in H as (dc & Hsum & H).
  destruct H as [(-> & _ & ->)|[(c & ns' & _ & _ & _ & ->)|(c & e & _ & _ & _ & _ & _ & ->)]];
    [|done|done].
  simpl. repeat split. by exists dc.
Qed.


(** X7.  The code that an envelope carries is the code that was run: it
    is what the extractor found in the response, it is not empty, and it
    has no whitespace at either end. *)
Theorem envelope_code_trimmed question st env st' code :
  ask question st = Returns env st' →
  Envelope.code env = Some code →
  code ≠ []
  ∧ strip code = code
  ∧ ∃ data_context,
      get_data_summary (frame st) = inr data_context
      ∧ extract_code (response data_context question) = Some code.
Proof.
  intros H Hc. apply ask_returns in H as (dc & Hsum & H).
  assert (extract_code (response dc question) = Some code ∧ code ≠ [])
    as [Hx Hne].
  { destruct H as [(-> & _ & ->)|[(c & ns' & ? & ? & _ & ->)|(c & e & ? & ? & _ & _ & _ & ->)]];
      [done| |]; simpl in Hc; by injection Hc as ->. }
  split; [done|]. split; [|by exists dc].
  apply extract_code_sound in Hx as (? & inner & ? & _ & _ & _ & ->).
  apply strip_idem.
Qed.

End OrchestratorFacts.

(* ================================================================== *)
(** * The dashboard filters *)
(* ================================================================== *)

Section FilterFacts.

Implicit Types (a b c d lo hi : date) (l : list date).

Lemma date_leb_refl a : date_leb a a = true.
Proof.
  unfold date_leb. rewrite !N.eqb_refl, N.leb_refl. simpl.
  by rewrite !orb_true_r.
Qed.

Lemma date_leb_spec a b :
  date_leb a b = true ↔
  (year a < year b
   ∨ year a = year b
     ∧ (month a < month b ∨ month a = month b ∧ day a <= day b))%N.
Proof.
  unfold date_leb.
  rewrite !orb_true_iff, !andb_true_iff, !orb_true_iff, !andb_true_iff.
  by rewrite !N.ltb_lt, !N.eqb_eq, N.leb_le.
Qed.

Lemma date_leb_trans a b c :
  date_leb a b = true → date_leb b c = true → date_leb a c = true.
Proof. rewrite !date_leb_spec. lia. Qed.

Lemma date_leb_total a b : date_leb a b = true ∨ date_leb b a = true.
Proof. rewrite !date_leb_spec. lia. Qed.

Lemma fold_min_below d l :
  let m := foldl (fun m x => if date_leb x m then x else m) d l in
  date_leb m d = true ∧ ∀ x, x ∈ l → date_leb m x = true.
Proof.
  revert d. induction l as [|y l IH]; intros d; simpl.
  - split; [apply date_leb_refl|]. intros x Hx. by apply elem_of_nil in Hx.
  - destruct (date_leb y d) eqn:Hy.
    + destruct (IH y) as [Hm Hall]. split; [by eapply date_leb_trans|].
      intros x [->|Hx]%elem_of_cons; auto.
    + destruct (IH d) as [Hm Hall]. split; [done|].
      intros x [->|Hx]%elem_of_cons; [|auto].
      destruct (date_leb_total d y) as [H|H]; [|congruence].
      by eapply date_leb_trans.
Qed.

Lemma fold_max_above d l :
  let m := foldl (fun m x => if date_leb m x then x else m) d l in
  date_leb d m = true ∧ ∀ x, x ∈ l → date_leb x m = true.
Proof.
  revert d. induction l as [|y l IH]; intros d; simpl.
  - split; [apply date_leb_refl|]. intros x Hx. by apply elem_of_nil in Hx.
  - destruct (date_leb d y) eqn:Hy.
    + destruct (IH y) as [Hm Hall]. split; [by eapply date_leb_trans|].
      intros x [->|Hx]%elem_of_cons; auto.
    + destruct (IH d) as [Hm Hall]. split; [done|].
      intros x [->|Hx]%elem_of_cons; [|auto].
      destruct (date_leb_total y d) as [H|H]; [|congruence].
      by eapply date_leb_trans.
Qed.

Lemma series_min_below l lo x :
  series_min l = Some lo → x ∈ l → date_leb lo x = true.
Proof.
  destruct l as [|d l]; [done|]. intros [= <-].
  destruct (fold_min_below d l) as [Hd Hl].
  intros [->|Hx]%elem_of_cons; auto.
Qed.

Lemma series_max_above l hi x :
  series_max l = Some hi → x ∈ l → date_leb x hi = true.
Proof.
  destruct l as [|d l]; [done|]. intros [= <-].
  destruct (fold_max_above d l) as [Hd Hl].
  intros [->|Hx]%elem_of_cons; auto.
Qed.

Lemma filter_all {A} (P : A → Prop) `{!∀ x, Decision (P x)} (l : list A) :
  (∀ x, x ∈ l → P x) → filter P l = l.
Proof.
  induction l as [|x l IH]; [done|]. intros Hall.
  rewrite filter_cons_True by (apply Hall; left).
  f_equal. apply IH. intros y Hy. apply Hall. by right.
Qed.

End FilterFacts.

(** X8.  With the selections the sidebar starts from, all departments,
    all categories and the range from the first to the last date of the
    data, the filtered view is the whole dataset. *)
Theorem default_filters_keep_everything (rows : dataset) (lo hi : date) :
  series_min (Date <$> rows) = Some lo →
  series_max (Date <$> rows) = Some hi →
  apply_filters ALL_DEPARTMENTS [lo; hi] ALL_CATEGORIES rows = rows.
Proof.
  intros Hlo Hhi. unfold apply_filters.
  rewrite !bool_decide_eq_false_2 by (by intros ?).
  apply filter_all. intros r Hr. unfold in_range.
  apply andb_true_iff. split.
  - eapply series_min_below; [done|]. by apply list_elem_of_fmap_2.
  - eapply series_max_above; [done|]. by apply list_elem_of_fmap_2.
Qed.

Lemma default_filters_keep_everything_witness :
  apply_filters ALL_DEPARTMENTS [mk_date 2025 1 15; mk_date 2025 3 9]
    ALL_CATEGORIES sample_frame
  = sample_frame.
Proof.
  apply (default_filters_keep_everything sample_frame);
    vm_compute; reflexivity.
Defined.

(** X9.  The filters act together as one conjunction: a row is shown
    exactly when it is in the data, its department is the selected one
    (or all are selected), its date lies in the chosen range (when both
    ends are chosen), and its category is the selected one (or all are).
    The rows shown keep the order of the data, so there are never more of
    them than in the data. *)
Theorem apply_filters_conjunction
    (selected_dept : pystr) (date_range : list date)
    (selected_category : pystr) (rows : dataset) :
  (∀ r, r ∈ apply_filters selected_dept date_range selected_category rows ↔
        r ∈ rows
        ∧ (selected_dept = ALL_DEPARTMENTS ∨ Department r = selected_dept)
        ∧ (∀ start_date end_date,
             date_range = [start_date; end_date] →
             date_leb start_date (Date r) = true
             ∧ date_leb (Date r) end_date = true)
        ∧ (selected_category = ALL_CATEGORIES
           ∨ Category r = selected_category))
  ∧ apply_filters selected_dept date_range selected_category rows
      `sublist_of` rows
  ∧ length (apply_filters selected_dept date_range selected_category rows)
    ≤ length rows.
Proof.
  assert (Hsub : apply_filters selected_dept date_range selected_category rows
                   `sublist_of` rows).
  { unfold apply_filters.
    repeat (case_bool_decide || case_match);
      repeat (etrans; [apply sublist_filter|]); done. }
  split; [|split; [done|by apply sublist_length]].
  intros r. unfold apply_filters.
  assert (Hrange : ∀ l : dataset,
             r ∈ match date_range with
                 | [start_date; end_date] =>
                     filter (fun r => in_range start_date end_date r = true) l
                 | _ => l
                 end ↔
             r ∈ l ∧ ∀ s e, date_range = [s; e] →
                     date_leb s (Date r) = true ∧ date_leb (Date r) e = true).
  { intros l. destruct date_range as [|s [|e [|??]]];
      try (split; [by intros ?|by intros [? _]]).
    rewrite list_elem_of_filter. unfold in_range.
    rewrite andb_true_iff. split.
    - intros [? ?]. split; [done|]. by intros ?? [= <- <-].
    - intros [? H]. split; [by apply H|done]. }
  repeat case_bool_decide;
    repeat match goal with H : ¬ (_ ≠ _) |- _ => apply dec_stable in H end;
    rewrite ?list_elem_of_filter, Hrange, ?list_elem_of_filter; tauto.
Qed.

(* ================================================================== *)
(** * The password gate *)
(* ================================================================== *)

(** X10.  When the password box holds [entered] and the secrets hold a
    password, the callback returns, and afterwards the gate is open
    exactly when the two are equal.  The secret itself is never left in
    the session: a matching entry is deleted, while an entry that does not
    match stays stored.  No other session entry is touched. *)
Theorem password_submission
    (secrets : gmap pystr pystr) (ss : session) (entered secret : pystr) :
  ss !! py "password" = Some (SStr entered) →
  secrets !! py "password" = Some secret →
  ∃ ss',
    password_entered secrets ss = inr ss'
    ∧ (fst (check_password ss') = true ↔ entered = secret)
    ∧ ss' !! py "password" ≠ Some (SStr secret)
    ∧ (entered ≠ secret → ss' !! py "password" = Some (SStr entered))
    ∧ ∀ key, key ≠ py "password" → key ≠ py "password_correct" →
             ss' !! key = ss !! key.
Proof.
  intros Hss Hsec. unfold password_entered. rewrite Hss, Hsec.
  assert (Hkeys : py "password_correct" ≠ py "password") by done.
  case_bool_decide as Heq.
  - subst entered. eexists. split; [done|]. repeat split.
    + unfold check_password.
      rewrite lookup_delete_ne, lookup_insert_eq by done. done.
    + by rewrite lookup_delete_eq.
    + done.
    + intros key H1 H2. by rewrite lookup_delete_ne, lookup_insert_ne.
  - eexists. split; [done|]. repeat split.
    + unfold check_password. rewrite lookup_insert_eq. done.
    + done.
    + rewrite lookup_insert_ne, Hss by done. congruence.
    + intros _. by rewrite lookup_insert_ne.
    + intros key H1 H2. by rewrite lookup_insert_ne.
Qed.

Lemma password_submission_witness :
  ∃ ss',
    password_entered {[ py "password" := py "open sesame" ]}
      {[ py "password" := SStr (py "guess") ]} = inr ss'
    ∧ (fst (check_password ss') = true ↔ py "guess" = py "open sesame")
    ∧ ss' !! py "password" ≠ Some (SStr (py "open sesame"))
    ∧ (py "guess" ≠ py "open sesame" →
       ss' !! py "password" = Some (SStr (py "guess")))
    ∧ ∀ key, key ≠ py "password" → key ≠ py "password_correct" →
             ss' !! key
             = ({[ py "password" := SStr (py "guess") ]} : session) !! key.
Proof.
  apply (password_submission {[ py "password" := py "open sesame" ]}
           {[ py "password" := SStr (py "guess") ]}
           (py "guess") (py "open sesame"));
    vm_compute; reflexivity.
Defined.

(* ================================================================== *)
(** * Asking a question from the dashboard *)
(* ================================================================== *)

Section AskingFacts.

Variable SYSTEM_PROMPT : pystr.
Variable client : pystr -> pystr -> pystr.
Variable exec : pystr -> namespace -> store -> outcome.

Local Abbreviation response := (response_to SYSTEM_PROMPT client).
Local Abbreviation ask := (ask_financial_question SYSTEM_PROMPT client exec).

(** X11.  A question whose envelope is a failure, or whose answer is a
    string, is always answered on the page and recorded.  The run raises
    nothing; after the spinner and the heading it draws the answer, as an
    error box for a failure, as a success box for an answer on one line,
    and as a success notice followed by the text for an answer of several
    lines, then the audit-trail expander; and it appends exactly one
    entry with the question and the envelope's answer, code and success
    flag. *)
Theorem answered_question_is_recorded
    (user_question : pystr) (chat_history : list Chat.entry)
    (st : store) (env : Envelope.t) (st' : store) :
  user_question ≠ [] →
  ask user_question st = Returns env st' →
  (Envelope.success env = false ∨ ∃ msg, Envelope.answer env = VStr msg) →
  ∃ msg,
    Envelope.answer env = VStr msg
    ∧ process_question SYSTEM_PROMPT client exec user_question chat_history st
      = ([st_spinner SPINNER_TEXT; st_markdown (py "### Answer")]
         ++ (if Envelope.success env then
               if str_in NL msg then
                 [st_success (VStr (py "Query executed successfully!"));
                  st_text (VStr msg)]
               else [st_success (VStr msg)]
             else [st_error (VStr msg)])
         ++ [st_expander EXPANDER_LABEL (show_code env)],
         Returns
           (chat_history
            ++ [ {| Chat.question := user_question;
                    Chat.answer := VStr msg;
                    Chat.code := Envelope.code env;
                    Chat.success := Envelope.success env |} ])
           st').
Proof.
  intros Hq Hask Hshape.
  assert (∃ msg, Envelope.answer env = VStr msg) as [msg Hmsg].
  { destruct Hshape as [Hs|]; [|done].
    apply ask_returns in Hask as (dc & _ & H).
    destruct H as [(_ & _ & ->)|[(? & ? & _ & _ & _ & ->)|(? & e & _ & _ & _ & _ & _ & ->)]];
      [|done|]; simpl; eauto. }
  exists msg. split; [done|]. unfold process_question.
  destruct user_question as [|c q]; [done|]. rewrite Hask.
  unfold show_answer. rewrite Hmsg.
  destruct (Envelope.success env); simpl; [|done].
  by destruct (str_in NL msg).
Qed.

(** X12.  When the generated code runs to completion and leaves [None]
    or an integer under [result], the envelope reports success, and the
    dashboard then raises a [TypeError] on testing the answer for a line
    break: no answer is drawn and nothing is appended to the chat
    history, while whatever the code did to the store remains. *)
Theorem unprintable_result_breaks_page
    (user_question : pystr) (chat_history : list Chat.entry) (st : store)
    (data_context code : pystr) (ns' : namespace) (st' : store) (v : value) :
  user_question ≠ [] →
  get_data_summary (frame st) = inr data_context →
  extract_code (response data_context user_question) = Some code →
  code ≠ [] →
  exec code (initial_namespace df) st = Completed ns' st' →
  ns' !! py "result" = Some v →
  (v = VNone ∨ ∃ z, v = VInt z) →
  ∃ e,
    exc_class e = py "TypeError"
    ∧ process_question SYSTEM_PROMPT client exec user_question chat_history st
      = ([st_spinner SPINNER_TEXT; st_markdown (py "### Answer")],
         Propagates e st').
Proof.
  intros Hq Hsum Hcode Hne Hexec Hres Hv. unfold process_question.
  destruct user_question as [|c q]; [done|].
  unfold ask_financial_question. rewrite Hsum, Hcode.
  destruct code as [|c' code]; [done|].
  unfold execute_code. rewrite Hexec, Hres. simpl.
  destruct Hv as [->|[z ->]]; simpl; eexists; (split; [|done]); done.
Qed.

End AskingFacts.

Lemma answered_question_is_recorded_witness :
  ∃ msg,
    Envelope.answer revenue_envelope = VStr msg
    ∧ process_question PROMPT (canned revenue_response) Fragment.python
        QUESTION [] sample_store
      = ([st_spinner SPINNER_TEXT; st_markdown (py "### Answer")]
         ++ (if Envelope.success revenue_envelope then
               if str_in NL msg then
                 [st_success (VStr (py "Query executed successfully!"));
                  st_text (VStr msg)]
               else [st_success (VStr msg)]
             else [st_error (VStr msg)])
         ++ [st_expander EXPANDER_LABEL (show_code revenue_envelope)],
         Returns
           ([] ++ [ {| Chat.question := QUESTION;
                       Chat.answer := VStr msg;
                       Chat.code := Envelope.code revenue_envelope;
                       Chat.success := Envelope.success revenue_envelope |} ])
           sample_store).
Proof.
  apply (answered_question_is_recorded PROMPT (canned revenue_response)
           Fragment.python QUESTION [] sample_store revenue_envelope
           sample_store).
  - by vm_compute.
  - by vm_compute.
  - right. by eexists.
Defined.

Lemma unprintable_result_breaks_page_witness :
  ∃ e,
    exc_class e = py "TypeError"
    ∧ process_question PROMPT (canned (py "<code>x = 1</code>"))
        Fragment.python QUESTION [] sample_store
      = ([st_spinner SPINNER_TEXT; st_markdown (py "### Answer")],
         Propagates e sample_store).
Proof.
  eapply (unprintable_result_breaks_page PROMPT
            (canned (py "<code>x = 1</code>")) Fragment.python QUESTION []
            sample_store _ (py "x = 1") _ sample_store VNone).
  - by vm_compute.
  - vm_compute. reflexivity.
  - by vm_compute.
  - by vm_compute.
  - vm_compute. reflexivity.
  - by vm_compute.
  - by left.
Defined.

(* ================================================================== *)
(** * The expenses pie *)
(* ================================================================== *)

Section PieFacts.

Lemma groupby_sum_length key rows :
  length (groupby_sum key rows) = length (unique (key <$> rows)).
Proof.
  unfold groupby_sum. rewrite length_fmap.
  apply Permutation_length, merge_sort_Permutation.
Qed.

End PieFacts.

(** X13.  With at most eight expense categories the pie has one slice
    for each category, holding that category's total, and no slice named
    Other is added: its slices are the per-category totals in the order
    of the sort.  In every case the pie has at most nine slices. *)
Theorem expense_slices_small
    (sort_desc : list (pystr * Z) → list (pystr * Z)) (rows : dataset) :
  (∀ l, sort_desc l ≡ₚ l) →
  length (expense_slices sort_desc rows) ≤ 9
  ∧ (length (unique (Category
                       <$> filter (fun r => Type_ r = py "Expense") rows))
     ≤ 8 →
     expense_slices sort_desc rows
     = sort_desc (groupby_sum Category
                    (filter (fun r => Type_ r = py "Expense") rows))
     ∧ expense_slices sort_desc rows
       ≡ₚ groupby_sum Category
            (filter (fun r => Type_ r = py "Expense") rows)
     ∧ length (expense_slices sort_desc rows)
       = length (unique (Category
                           <$> filter (fun r => Type_ r = py "Expense") rows))).
Proof.
  intros Hperm. unfold expense_slices.
  set (groups := groupby_sum Category
                   (filter (fun r => Type_ r = py "Expense") rows)).
  assert (Hlen : length (sort_desc groups)
                 = length (unique (Category
                     <$> filter (fun r => Type_ r = py "Expense") rows))).
  { rewrite (Permutation_length (Hperm groups)). apply groupby_sum_length. }
  destruct (8 <? length (sort_desc groups)) eqn:Hbig.
  - apply Nat.ltb_lt in Hbig. split.
    + rewrite length_app, length_take. cbn [length]. lia.
    + intros Hsmall. lia.
  - apply Nat.ltb_ge in Hbig. split; [lia|]. intros _. by repeat split.
Qed.

Lemma expense_slices_small_witness :
  length (expense_slices by_amount_desc sample_frame) ≤ 9
  ∧ (length (unique (Category
                       <$> filter (fun r => Type_ r = py "Expense")
                             sample_frame))
     ≤ 8 →
     expense_slices by_amount_desc sample_frame
     = by_amount_desc (groupby_sum Category
                         (filter (fun r => Type_ r = py "Expense")
                            sample_frame))
     ∧ expense_slices by_amount_desc sample_frame
       ≡ₚ groupby_sum Category
            (filter (fun r => Type_ r = py "Expense") sample_frame)
     ∧ length (expense_slices by_amount_desc sample_frame)
       = length (unique (Category
                           <$> filter (fun r => Type_ r = py "Expense")
                                 sample_frame))).
Proof.
  apply (expense_slices_small by_amount_desc sample_frame).
  intros l. apply merge_sort_Permutation.
Defined.

(** X14.  With more than eight expense categories the pie shows eight of
    them and folds the others into the slice named Other, whose amount is
    their sum; together the two groups are the per-category totals, and
    no folded category has a larger total than a category shown. *)
Theorem other_slice_folds_smallest
    (sort_desc : list (pystr * Z) → list (pystr * Z)) (rows : dataset) :
  (∀ l, sort_desc l ≡ₚ l) →
  (∀ l, Sorted amount_ge (sort_desc l)) →
  8 < length (unique (Category
                        <$> filter (fun r => Type_ r = py "Expense") rows)) →
  ∃ top rest,
    expense_slices sort_desc rows = top ++ [(py "Other", amounts_sum rest)]
    ∧ length top = 8
    ∧ top ++ rest
      ≡ₚ groupby_sum Category (filter (fun r => Type_ r = py "Expense") rows)
    ∧ ∀ a b, a ∈ top → b ∈ rest → (snd b ≤ snd a)%Z.
Proof.
  intros Hperm Hsorted Hmany. unfold expense_slices.
  set (groups := groupby_sum Category
                   (filter (fun r => Type_ r = py "Expense") rows)).
  assert (Hlen : 8 < length (sort_desc groups)).
  { rewrite (Permutation_length (Hperm groups)).
    unfold groups. by rewrite groupby_sum_length. }
  rewrite (proj2 (Nat.ltb_lt _ _) Hlen).
  exists (take 8 (sort_desc groups)), (drop 8 (sort_desc groups)).
  split; [done|]. split; [rewrite length_take; lia|].
  split; [by rewrite take_drop|].
  intros a b Ha Hb.
  assert (Htrans : Transitive amount_ge).
  { intros x y z. unfold amount_ge. lia. }
  pose proof (Sorted_StronglySorted amount_ge _ (Hsorted groups)) as Hss.
  rewrite <- (take_drop 8 (sort_desc groups)) in Hss.
  exact (StronglySorted_app_1_elem_of _ _ _ _ _ Hss Ha Hb).
Qed.

Lemma other_slice_folds_smallest_witness :
  ∃ top rest,
    expense_slices by_amount_desc ten_expenses
    = top ++ [(py "Other", amounts_sum rest)]
    ∧ length top = 8
    ∧ top ++ rest
      ≡ₚ groupby_sum Category
           (filter (fun r => Type_ r = py "Expense") ten_expenses)
    ∧ ∀ a b, a ∈ top → b ∈ rest → (snd b ≤ snd a)%Z.
Proof.
  apply (other_slice_folds_smallest by_amount_desc ten_expenses).
  - intros l. apply merge_sort_Permutation.
  - intros l. apply Sorted_merge_sort. intros x y. unfold amount_ge. lia.
  - vm_compute. lia.
Defined.

(* ================================================================== *)
(** * The orchestrator on the Python fragment, again *)
(* ================================================================== *)


Lemma envelope_without_code_witness :
  sample_store = sample_store
  ∧ Envelope.success
      {| Envelope.answer := VStr NO_CODE_ANSWER;
         Envelope.code := None;
         Envelope.explanation := py "I am not sure how to compute that.";
         Envelope.success := false;
         Envelope.error := Some NO_CODE_ERROR |} = false
  ∧ VStr NO_CODE_ANSWER = VStr NO_CODE_ANSWER
  ∧ Some NO_CODE_ERROR = Some NO_CODE_ERROR
  ∧ ∃ data_context,
      get_data_summary (frame sample_store) = inr data_context
      ∧ py "I am not sure how to compute that."
        = response_to PROMPT
            (canned (py "I am not sure how to compute that."))
            data_context QUESTION.
Proof.
  apply (envelope_without_code PROMPT
           (canned (py "I am not sure how to compute that."))
           Fragment.python QUESTION sample_store
           {| Envelope.answer := VStr NO_CODE_ANSWER;
              Envelope.code := None;
              Envelope.explanation := py "I am not sure how to compute that.";
              Envelope.success := false;
              Envelope.error := Some NO_CODE_ERROR |} sample_store).
  - by vm_compute.
  - done.
Defined.


Lemma envelope_code_trimmed_witness :
  py "result = 'Total revenue for 2025 was $100.00'" ≠ []
  ∧ strip (py "result = 'Total revenue for 2025 was $100.00'")
    = py "result = 'Total revenue for 2025 was $100.00'"
  ∧ ∃ data_context,
      get_data_summary (frame sample_store) = inr data_context
      ∧ extract_code
          (response_to PROMPT (canned revenue_response) data_context QUESTION)
        = Some (py "result = 'Total revenue for 2025 was $100.00'").
Proof.
  apply (envelope_code_trimmed PROMPT (canned revenue_response)
           Fragment.python QUESTION sample_store revenue_envelope
           sample_store).
  - by vm_compute.
  - done.
Defined.
